(** * The user registry service of [app.js]

    A shallow embedding of the six Express route handlers of [app.js] and of
    the in-memory array [users] they share, followed by the properties of the
    service's CRUD contract.

    What Express does before a handler runs is taken as given: routing binds
    the path parameter ([req.params]) to a string, the header names arrive in
    lower case in [req.headers], and [express.json()] leaves the parsed JSON
    object in [req.body] (the empty object when it parsed nothing). *)

From Stdlib Require Import PrimFloat.
From stdpp Require Import gmap strings list.

Set Warnings "-register-all,-clear-no-such-hyp".

Local Open Scope string_scope.
Local Open Scope list_scope.
Local Open Scope Z_scope.

(** ** JavaScript values *)

(** The values a handler can hold in a variable: what [JSON.parse] produces,
    and [undefined], which is what destructuring yields for a key the body
    does not have. Numbers are IEEE-754 doubles. An object literal keeps its
    keys in the order they were written. *)
Inductive value : Type :=
  | undefined
  | VNull
  | VBool (b : bool)
  | VNum (x : float)
  | VStr (s : string)
  | VArr (items : list value)
  | VObj (fields : list (string * value)).

(** [ToBoolean]: the conversion behind [!v] and [if (v)]. *)
Definition truthy (v : value) : bool :=
  match v with
  | undefined | VNull => false
  | VBool b => b
  | VNum x => negb (PrimFloat.eqb x 0%float || PrimFloat.is_nan x)
  | VStr s => negb (String.eqb s "")
  | VArr _ | VObj _ => true
  end.

(** [a === b] where [b] belongs to the request at hand (a path parameter or
    a value of the freshly parsed body) and [a] is stored in the registry.
    Primitives are compared by value; arrays and objects are compared by
    reference, and a value parsed for this request is a new reference. *)
Definition strict_eq (a b : value) : bool :=
  match a, b with
  | undefined, undefined => true
  | VNull, VNull => true
  | VBool x, VBool y => Bool.eqb x y
  | VNum x, VNum y => PrimFloat.eqb x y
  | VStr x, VStr y => String.eqb x y
  | _, _ => false
  end.

(** A JavaScript object used as a string-keyed map: [req.body], [req.headers]. *)
Abbreviation object := (gmap string value).

(** [o.k], also written [const { k } = o]. *)
Definition prop (o : object) (k : string) : value :=
  default undefined (o !! k).

(** [Object.keys(o).length] *)
Definition keys_length (o : object) : Z := Z.of_nat (size o).

(** ** Array methods used by the handlers *)

Section ArrayMethods.
Context {A : Type}.

(** [arr.findIndex(p)]: the first index whose element satisfies [p], or -1. *)
Fixpoint findIndex (p : A → bool) (arr : list A) : Z :=
  match arr with
  | [] => -1
  | x :: rest =>
      if p x then 0
      else let i := findIndex p rest in
           if i =? -1 then -1 else i + 1
  end.

(** [arr.some(p)] *)
Definition some (p : A → bool) (arr : list A) : bool := existsb p arr.

(** [arr.push(x)] *)
Definition push (arr : list A) (x : A) : list A := arr ++ [x].

(** [arr.splice(index, 1)] for an index within the array. *)
Definition splice1 (index : Z) (arr : list A) : list A :=
  delete (Z.to_nat index) arr.

(** [arr[index] = x] for an index within the array. *)
Definition assign (index : Z) (x : A) (arr : list A) : list A :=
  <[Z.to_nat index := x]> arr.

(** [arr[index]] *)
Definition at_index (index : Z) (arr : list A) : option A :=
  arr !! Z.to_nat index.
End ArrayMethods.

(** ** The registry *)

Record User : Type := mkUser {
  id : value;
  Firstname : value;
  Surname : value
}.

(** The object literal [{ id, Firstname, Surname }] as [res.json] sends it. *)
Definition user_json (u : User) : value :=
  VObj [("id", id u); ("Firstname", Firstname u); ("Surname", Surname u)].

Definition users : list User :=
  [ mkUser (VStr "1") (VStr "Jyri") (VStr "Kemppainen");
    mkUser (VStr "2") (VStr "Petri") (VStr "Laitinen") ].

(** ** Requests and responses *)

Inductive Route : Type :=
  | GetHome                           (* GET /                   *)
  | GetIndex                          (* GET /index              *)
  | GetData                           (* GET /data               *)
  | GetDataId (id : string)           (* GET /data/:id           *)
  | PostData                          (* POST /data              *)
  | DeleteUser (user_id : string)     (* DELETE /user/:user_id   *)
  | PutUser (user_id : string).       (* PUT /users/:user_id     *)

Record Request : Type := mkRequest {
  route : Route;
  headers : gmap string string;
  body : object
}.

(** What the handler sends: the status code and the JSON payload, [None]
    for [res.end()]. *)
Record Response : Type := mkResponse {
  status : Z;
  payload : option value
}.

(** [res.json(v)] *)
Definition json (v : value) : Response := mkResponse 200 (Some v).
(** [res.status(code).json(v)] *)
Definition status_json (code : Z) (v : value) : Response := mkResponse code (Some v).
(** [res.status(code).end()] *)
Definition status_end (code : Z) : Response := mkResponse code None.

(** [{ error: msg }] *)
Definition error (msg : string) : value := VObj [("error", VStr msg)].

(** [req.headers['content-type'] !== 'application/json'] *)
Definition content_type_not_json (req : Request) : bool :=
  match headers req !! "content-type" with
  | Some ct => negb (String.eqb ct "application/json")
  | None => true
  end.

(** ** The handlers

    Each handler takes the request and the registry and returns the response
    with the registry it leaves behind. *)

Definition get_home (req : Request) (users : list User) : Response * list User :=
  (json (VObj [("home", VStr "Home page")]), users).

Definition get_index (req : Request) (users : list User) : Response * list User :=
  (json (VObj [("hello", VStr "Hello World!")]), users).

Definition get_data (req : Request) (users : list User) : Response * list User :=
  (json (VArr (map user_json users)), users).

Definition get_data_id (id_param : string) (req : Request) (users : list User)
  : Response * list User :=
  let userId := VStr id_param in
  let user := find (λ u, strict_eq (id u) userId) users in
  match user with
  | Some user => (json (user_json user), users)
  | None => (status_json 404 (error "User not found"), users)
  end.

Definition post_data (req : Request) (users : list User) : Response * list User :=
  let id_ := prop (body req) "id" in
  let Firstname_ := prop (body req) "Firstname" in
  let Surname_ := prop (body req) "Surname" in
  if content_type_not_json req then
    (status_json 415
       (error "Unsupported Media Type. Content-Type must be application/json"),
     users)
  else if negb (truthy id_) || negb (truthy Firstname_) || negb (truthy Surname_) then
    (status_json 400 (error "Missing required fields: id, Firstname, Surname"), users)
  else if negb (keys_length (body req) =? 3) then
    (status_json 400
       (error "Only id, Firstname, and Surname are allowed in the request body"),
     users)
  else if some (λ user, strict_eq (id user) id_) users then
    (status_json 400 (error "User with this ID already exists"), users)
  else
    let newUser := mkUser id_ Firstname_ Surname_ in
    (status_json 201 (user_json newUser), push users newUser).

Definition delete_user (user_id : string) (req : Request) (users : list User)
  : Response * list User :=
  let userId := VStr user_id in
  let index := findIndex (λ user, strict_eq (id user) userId) users in
  if index =? -1 then
    (status_json 404 (error "user not found"), users)
  else
    (status_end 204, splice1 index users).

Definition put_user (user_id : string) (req : Request) (users : list User)
  : Response * list User :=
  let userId := VStr user_id in
  let Firstname_ := prop (body req) "Firstname" in
  let Surname_ := prop (body req) "Surname" in
  if content_type_not_json req then
    (status_json 415
       (error "Unsupported Media Type. Content-Type must be application/json"),
     users)
  else if negb (truthy Firstname_) || negb (truthy Surname_) then
    (status_json 400 (error "Missing required fields: Firstname, Surname"), users)
  else
    let existingUserIndex := findIndex (λ user, strict_eq (id user) userId) users in
    if negb (existingUserIndex =? -1) then
      let users' := assign existingUserIndex (mkUser userId Firstname_ Surname_) users in
      (status_json 200
         (from_option user_json undefined (at_index existingUserIndex users')),
       users')
    else
      let newUser := mkUser userId Firstname_ Surname_ in
      (status_json 201 (user_json newUser), push users newUser).

(** The routing table. *)
Definition handle (req : Request) (users : list User) : Response * list User :=
  match route req with
  | GetHome => get_home req users
  | GetIndex => get_index req users
  | GetData => get_data req users
  | GetDataId i => get_data_id i req users
  | PostData => post_data req users
  | DeleteUser user_id => delete_user user_id req users
  | PutUser user_id => put_user user_id req users
  end.

(** The registry after a sequence of requests, handled one after the other. *)
Definition run (reqs : list Request) (us : list User) : list User :=
  foldl (λ us req, snd (handle req us)) us reqs.

(** The registry states the server can be in. *)
Definition reachable (us : list User) : Prop := ∃ reqs, us = run reqs users.

(** ** Requests used in the examples *)

Definition json_headers : gmap string string :=
  {[ "content-type" := "application/json" ]}.

Definition maria_body : object :=
  {[ "id" := VStr "3"; "Firstname" := VStr "Maria"; "Surname" := VStr "Virtanen" ]}.

Definition maria : User := mkUser (VStr "3") (VStr "Maria") (VStr "Virtanen").

Definition post_maria : Request := mkRequest PostData json_headers maria_body.

Definition list_all : Request := mkRequest GetData ∅ ∅.

Definition louvre_body : object :=
  {[ "Firstname" := VStr "Louvre"; "Surname" := VStr "Museum" ]}.

Definition louvre : User := mkUser (VStr "1") (VStr "Louvre") (VStr "Museum").

Definition put_louvre : Request := mkRequest (PutUser "1") json_headers louvre_body.

(** A PUT body that carries an id of its own. *)
Definition liberty_body : object :=
  {[ "id" := VStr "2"; "Firstname" := VStr "Statue"; "Surname" := VStr "Liberty" ]}.

Definition liberty : User := mkUser (VStr "3") (VStr "Statue") (VStr "Liberty").

Definition put_liberty : Request := mkRequest (PutUser "3") json_headers liberty_body.

(** A POST body whose id the seed registry already holds. *)
Definition taken_body : object :=
  {[ "id" := VStr "1"; "Firstname" := VStr "Maria"; "Surname" := VStr "Virtanen" ]}.

(** A POST body with a fourth key. *)
Definition extra_body : object :=
  {[ "id" := VStr "3"; "Firstname" := VStr "Maria"; "Surname" := VStr "Virtanen";
     "extra" := VStr "x" ]}.

Definition text_headers : gmap string string :=
  {[ "content-type" := "text/plain" ]}.

(** A POST body without names whose id the seed registry already holds. *)
Definition id_only_body : object := {[ "id" := VStr "1" ]}.

(** Bodies with an empty string under a required key. *)
Definition empty_id_body : object :=
  {[ "id" := VStr ""; "Firstname" := VStr "Maria"; "Surname" := VStr "Virtanen" ]}.

Definition empty_surname_body : object :=
  {[ "Firstname" := VStr "Louvre"; "Surname" := VStr "" ]}.

Definition unsupported_media_type : Response :=
  mkResponse 415
    (Some (error "Unsupported Media Type. Content-Type must be application/json")).

Definition missing_post_fields : Response :=
  mkResponse 400 (Some (error "Missing required fields: id, Firstname, Surname")).

Definition missing_put_fields : Response :=
  mkResponse 400 (Some (error "Missing required fields: Firstname, Surname")).


Definition petri : User := mkUser (VStr "2") (VStr "Petri") (VStr "Laitinen").

Definition user_not_found : Response := mkResponse 404 (Some (error "User not found")).

(** A POST body whose id is an object. *)
Definition object_id_body : object :=
  {[ "id" := VObj []; "Firstname" := VStr "Maria"; "Surname" := VStr "Virtanen" ]}.

Definition object_id_user : User := mkUser (VObj []) (VStr "Maria") (VStr "Virtanen").

(** A PUT body with keys the handler does not read. *)
Definition louvre_body_with_extras : object :=
  {[ "Firstname" := VStr "Louvre"; "Surname" := VStr "Museum";
     "id" := VStr "2"; "extra" := VNull ]}.


(** ** Uniqueness read structurally *)



(** ** What a request addresses, and what a stored record looks like *)

(** The values [===] compares by reference: arrays and objects. *)
Definition compared_by_reference (v : value) : bool :=
  match v with
  | VArr _ | VObj _ => true
  | _ => false
  end.

(** The id a request is about: the path parameter, or the [id] of the body
    in [POST /data]; [undefined] for the routes without one. *)
Definition addressed_id (req : Request) : value :=
  match route req with
  | GetDataId s | DeleteUser s | PutUser s => VStr s
  | PostData => prop (body req) "id"
  | GetHome | GetIndex | GetData => undefined
  end.

(** The routes registered with [app.get]. *)
Definition is_get (r : Route) : bool :=
  match r with
  | GetHome | GetIndex | GetData | GetDataId _ => true
  | PostData | DeleteUser _ | PutUser _ => false
  end.

(** A record as the two writing handlers build it: both names passed the
    [!Firstname || !Surname] test and the id is there. *)
Definition well_formed (u : User) : Prop :=
  truthy (Firstname u) = true ∧ truthy (Surname u) = true ∧ id u ≠ undefined.

(** ** The uniqueness invariant *)

(** No id of the list is [===] to one further down the list: the test
    [user.id === id] that [POST /data] runs against every stored record
    before it pushes a new one. *)
Fixpoint distinct (ids : list value) : Prop :=
  match ids with
  | [] => True
  | a :: rest => Forall (λ b, strict_eq a b = false) rest ∧ distinct rest
  end.

(** The values [===] compares by value; every one of them but [NaN] is
    [===] to itself. *)
Definition compared_by_value (v : value) : bool :=
  match v with
  | VArr _ | VObj _ => false
  | VNum x => negb (PrimFloat.is_nan x)
  | _ => true
  end.

(** Splits the goal along the [if]s of a handler, keeping each test's
    outcome as a hypothesis. *)
Ltac branches :=
  repeat match goal with
  | |- context [if ?b then _ else _] =>
      let E := fresh "E" in destruct b eqn:E
  end.

Example seed_listing :
  fst (get_data (mkRequest GetData ∅ ∅) users)
  = json (VArr [ VObj [("id", VStr "1"); ("Firstname", VStr "Jyri"); ("Surname", VStr "Kemppainen")];
                 VObj [("id", VStr "2"); ("Firstname", VStr "Petri"); ("Surname", VStr "Laitinen")] ]).
Proof. reflexivity. Qed.

(** ** Facts about the values and the array methods *)

Lemma strict_eq_string (v : value) (s : string) :
  strict_eq v (VStr s) = true ↔ v = VStr s.
Proof.
  destruct v; simpl; try (split; [discriminate|congruence]).
  rewrite String.eqb_eq. split; congruence.
Qed.

Lemma strict_eq_string_false (v : value) (s : string) :
  strict_eq v (VStr s) = false ↔ v ≠ VStr s.
Proof. rewrite <- strict_eq_string. destruct (strict_eq v (VStr s)); naive_solver. Qed.

Lemma truthy_string (s : string) : truthy (VStr s) = true ↔ s ≠ "".
Proof.
  simpl. rewrite negb_true_iff. destruct (String.eqb_spec s ""); naive_solver.
Qed.

Lemma prop_lookup (o : object) (k : string) (v : value) :
  o !! k = Some v → prop o k = v.
Proof. unfold prop. by intros ->. Qed.

Lemma truthy_prop_is_Some (o : object) (k : string) :
  truthy (prop o k) = true → is_Some (o !! k).
Proof. unfold prop. destruct (o !! k); [eauto|discriminate]. Qed.

Section ArrayFacts.
Context {A : Type} (p : A → bool).

Lemma findIndex_lower (arr : list A) : -1 ≤ findIndex p arr.
Proof.
  induction arr as [|x rest IH]; simpl; [lia|].
  destruct (p x); [lia|]. destruct (Z.eqb_spec (findIndex p rest) (-1)); lia.
Qed.

(** [findIndex] answers -1 exactly when no element satisfies the test. *)
Lemma findIndex_absent (arr : list A) :
  findIndex p arr = -1 ↔ Forall (λ x, p x = false) arr.
Proof.
  induction arr as [|x rest IH]; simpl; [by split|].
  pose proof (findIndex_lower rest) as Hlow.
  destruct (p x) eqn:Hx.
  - split; [discriminate|]. intros H. inversion H; congruence.
  - destruct (Z.eqb_spec (findIndex p rest) (-1)) as [E|E].
    + split; [|done]. intros _. constructor; [done|by apply IH].
    + split; [lia|]. intros H. inversion H; subst. exfalso. apply E. by apply IH.
Qed.

(** Otherwise it is the position of the first element that does. *)
Lemma findIndex_present (arr : list A) :
  findIndex p arr ≠ -1 →
  ∃ before x after,
    arr = before ++ x :: after ∧ p x = true
    ∧ Forall (λ y, p y = false) before
    ∧ findIndex p arr = Z.of_nat (length before).
Proof.
  induction arr as [|x rest IH]; simpl; [done|].
  destruct (p x) eqn:Hx.
  - intros _. by exists [], x, rest.
  - destruct (Z.eqb_spec (findIndex p rest) (-1)) as [E|E]; [done|].
    intros _. destruct (IH E) as (before & y & after & -> & Hy & Hb & Hi).
    exists (x :: before), y, after. repeat split; [done|by constructor|].
    rewrite Hi. simpl length. lia.
Qed.

Lemma findIndex_first (before after : list A) (x : A) :
  Forall (λ y, p y = false) before → p x = true →
  findIndex p (before ++ x :: after) = Z.of_nat (length before).
Proof.
  induction 1 as [|y before Hy _ IH]; simpl; intros Hx; [by rewrite Hx|].
  rewrite Hy, (IH Hx). destruct (Z.eqb_spec (Z.of_nat (length before)) (-1)); lia.
Qed.

Lemma find_absent (arr : list A) :
  find p arr = None ↔ Forall (λ x, p x = false) arr.
Proof.
  induction arr as [|x rest IH]; simpl; [by split|].
  destruct (p x) eqn:Hx.
  - split; [discriminate|]. intros H. inversion H; congruence.
  - rewrite IH. split; [by constructor|]. by inversion 1.
Qed.

Lemma find_first (before after : list A) (x : A) :
  Forall (λ y, p y = false) before → p x = true →
  find p (before ++ x :: after) = Some x.
Proof.
  induction 1 as [|y before Hy _ IH]; simpl; intros Hx; [by rewrite Hx|].
  rewrite Hy. by apply IH.
Qed.

Lemma some_false (arr : list A) :
  some p arr = false ↔ Forall (λ x, p x = false) arr.
Proof.
  unfold some. induction arr as [|x rest IH]; simpl; [by split|].
  rewrite orb_false_iff, IH. split; [intros []; by constructor|by inversion 1].
Qed.

Lemma splice1_middle (before after : list A) (x : A) :
  splice1 (Z.of_nat (length before)) (before ++ x :: after) = before ++ after.
Proof.
  unfold splice1. rewrite Nat2Z.id.
  induction before as [|y before IH]; simpl; [done|]. by rewrite IH.
Qed.

Lemma assign_middle (before after : list A) (x y : A) :
  assign (Z.of_nat (length before)) y (before ++ x :: after) = before ++ y :: after.
Proof.
  unfold assign. rewrite Nat2Z.id.
  induction before as [|z before IH]; simpl; [done|]. by rewrite IH.
Qed.

Lemma at_index_middle (before after : list A) (x : A) :
  at_index (Z.of_nat (length before)) (before ++ x :: after) = Some x.
Proof.
  unfold at_index. rewrite Nat2Z.id.
  induction before as [|z before IH]; simpl; [done|]. by rewrite IH.
Qed.
End ArrayFacts.

(** ** Case analysis of the handlers *)

Lemma post_data_created (req : Request) (us : list User) :
  status (fst (post_data req us)) = 201 →
  content_type_not_json req = false
  ∧ truthy (prop (body req) "id") = true
  ∧ truthy (prop (body req) "Firstname") = true
  ∧ truthy (prop (body req) "Surname") = true
  ∧ keys_length (body req) = 3
  ∧ some (λ u, strict_eq (id u) (prop (body req) "id")) us = false
  ∧ post_data req us =
      (let newUser := mkUser (prop (body req) "id") (prop (body req) "Firstname")
                             (prop (body req) "Surname") in
       (status_json 201 (user_json newUser), push us newUser)).
Proof.
  unfold post_data. branches; simpl; try discriminate. intros _.
  apply orb_false_elim in E0 as [E0 E4].
  apply orb_false_elim in E0 as [E0 E5].
  rewrite !negb_false_iff in *. apply Z.eqb_eq in E1. done.
Qed.

Lemma json_content_type (r : Route) (hs : gmap string string) (b : object) :
  hs !! "content-type" = Some "application/json" →
  content_type_not_json (mkRequest r hs b) = false.
Proof. unfold content_type_not_json. simpl. by intros ->. Qed.

Lemma other_content_type (r : Route) (hs : gmap string string) (b : object) :
  hs !! "content-type" ≠ Some "application/json" →
  content_type_not_json (mkRequest r hs b) = true.
Proof.
  unfold content_type_not_json. simpl. destruct (hs !! "content-type") as [ct|]; [|done].
  intros H. destruct (String.eqb_spec ct "application/json"); [congruence|done].
Qed.

Lemma no_match_iff (s : string) (us : list User) :
  Forall (λ u, strict_eq (id u) (VStr s) = false) us ↔ ∀ u, u ∈ us → id u ≠ VStr s.
Proof.
  rewrite Forall_forall. split; intros H u Hu; apply strict_eq_string_false; auto.
Qed.

(** [GET /data/:id] answers with the first record carrying the id. *)
Lemma get_data_id_first (s : string) (req : Request) (before after : list User) (u : User) :
  (∀ v, v ∈ before → id v ≠ VStr s) → id u = VStr s →
  get_data_id s req (before ++ u :: after)
  = (mkResponse 200 (Some (user_json u)), before ++ u :: after).
Proof.
  intros Hb Hu. unfold get_data_id.
  rewrite (find_first _ before after u); [done|by apply no_match_iff|].
  by apply strict_eq_string.
Qed.

Lemma get_data_id_absent (s : string) (req : Request) (us : list User) :
  (∀ v, v ∈ us → id v ≠ VStr s) →
  get_data_id s req us = (mkResponse 404 (Some (error "User not found")), us).
Proof.
  intros H. unfold get_data_id.
  by rewrite (proj2 (find_absent _ us) (proj2 (no_match_iff s us) H)).
Qed.

(** A record carrying the id splits the registry at the first such record. *)
Lemma first_match (s : string) (us : list User) :
  (∃ u, u ∈ us ∧ id u = VStr s) →
  ∃ before u after,
    us = before ++ u :: after ∧ id u = VStr s
    ∧ (∀ v, v ∈ before → id v ≠ VStr s)
    ∧ findIndex (λ user, strict_eq (id user) (VStr s)) us = Z.of_nat (length before).
Proof.
  intros (u & Hu & Hid).
  destruct (findIndex_present (λ user, strict_eq (id user) (VStr s)) us)
    as (before & x & after & -> & Hx & Hb & Hi).
  - rewrite findIndex_absent, Forall_forall. intros H.
    specialize (H u Hu). apply strict_eq_string_false in H. done.
  - exists before, x, after. repeat split; [by apply strict_eq_string| |done].
    by apply no_match_iff.
Qed.

Lemma delete_user_absent (s : string) (req : Request) (us : list User) :
  (∀ v, v ∈ us → id v ≠ VStr s) →
  delete_user s req us = (mkResponse 404 (Some (error "user not found")), us).
Proof.
  intros H. unfold delete_user.
  by rewrite (proj2 (findIndex_absent _ us) (proj2 (no_match_iff s us) H)).
Qed.

Lemma findIndex_id (s : string) (before after : list User) (u : User) :
  (∀ v, v ∈ before → id v ≠ VStr s) → id u = VStr s →
  findIndex (λ user, strict_eq (id user) (VStr s)) (before ++ u :: after)
  = Z.of_nat (length before).
Proof.
  intros Hb Hu. apply findIndex_first; [by apply no_match_iff|by apply strict_eq_string].
Qed.

Lemma delete_user_first (s : string) (req : Request) (before after : list User) (u : User) :
  (∀ v, v ∈ before → id v ≠ VStr s) → id u = VStr s →
  delete_user s req (before ++ u :: after) = (mkResponse 204 None, before ++ after).
Proof.
  intros Hb Hu. unfold delete_user. rewrite (findIndex_id s before after u Hb Hu).
  destruct (Z.eqb_spec (Z.of_nat (length before)) (-1)) as [?|_]; [lia|].
  by rewrite splice1_middle.
Qed.

Lemma put_user_valid (s : string) (r : Route) (hs : gmap string string) (b : object)
    (us : list User) :
  hs !! "content-type" = Some "application/json" →
  truthy (prop b "Firstname") = true → truthy (prop b "Surname") = true →
  put_user s (mkRequest r hs b) us
  = let i := findIndex (λ user, strict_eq (id user) (VStr s)) us in
    let new := mkUser (VStr s) (prop b "Firstname") (prop b "Surname") in
    if negb (i =? -1)
    then (mkResponse 200
            (Some (from_option user_json undefined (at_index i (assign i new us)))),
          assign i new us)
    else (mkResponse 201 (Some (user_json new)), us ++ [new]).
Proof.
  intros Hct HF HS. unfold put_user.
  rewrite (json_content_type _ _ _ Hct). simpl. by rewrite HF, HS.
Qed.

Lemma some_id (s : string) (us : list User) :
  (∃ u, u ∈ us ∧ id u = VStr s) →
  some (λ user, strict_eq (id user) (VStr s)) us = true.
Proof.
  intros (u & Hu & Hid). unfold some. apply existsb_exists.
  exists u. split; [by apply list_elem_of_In|by apply strict_eq_string].
Qed.

(** A body with the three recognised keys and one more has at least four. *)
Lemma four_keys (b : object) (k : string) :
  is_Some (b !! "id") → is_Some (b !! "Firstname") → is_Some (b !! "Surname") →
  k ≠ "id" → k ≠ "Firstname" → k ≠ "Surname" → is_Some (b !! k) →
  (4 ≤ size b)%nat.
Proof.
  intros Hi%elem_of_dom Hf%elem_of_dom Hs%elem_of_dom ? ? ? Hk%elem_of_dom.
  rewrite <- (size_dom (D := gset string)).
  assert ({[k]} ∪ {["id"; "Firstname"; "Surname"]} ⊆ dom b) as Hsub by set_solver.
  apply subseteq_size in Hsub. rewrite size_union in Hsub by set_solver.
  rewrite size_singleton in Hsub.
  replace (size ({["id"; "Firstname"; "Surname"]} : gset string)) with 3%nat in Hsub
    by (vm_compute; reflexivity).
  lia.
Qed.

(** A body of three keys that has the three recognised ones has no other. *)
Lemma three_keys (b : object) :
  is_Some (b !! "id") → is_Some (b !! "Firstname") → is_Some (b !! "Surname") →
  size b = 3%nat → dom b = ({["id"; "Firstname"; "Surname"]} : gset string).
Proof.
  intros Hi%elem_of_dom Hf%elem_of_dom Hs%elem_of_dom Hsize.
  symmetry. apply set_subseteq_size_eq; [set_solver|].
  rewrite size_dom, Hsize. vm_compute. lia.
Qed.

Lemma post_data_unsupported (r : Route) (hs : gmap string string) (b : object)
    (us : list User) :
  hs !! "content-type" ≠ Some "application/json" →
  post_data (mkRequest r hs b) us = (unsupported_media_type, us).
Proof. intros H. unfold post_data. by rewrite (other_content_type _ _ _ H). Qed.

Lemma put_user_unsupported (s : string) (r : Route) (hs : gmap string string)
    (b : object) (us : list User) :
  hs !! "content-type" ≠ Some "application/json" →
  put_user s (mkRequest r hs b) us = (unsupported_media_type, us).
Proof. intros H. unfold put_user. by rewrite (other_content_type _ _ _ H). Qed.

Lemma post_data_missing (r : Route) (hs : gmap string string) (b : object)
    (us : list User) :
  hs !! "content-type" = Some "application/json" →
  truthy (prop b "id") = false ∨ truthy (prop b "Firstname") = false
  ∨ truthy (prop b "Surname") = false →
  post_data (mkRequest r hs b) us = (missing_post_fields, us).
Proof.
  intros Hct H. unfold post_data. rewrite (json_content_type _ _ _ Hct). simpl.
  destruct H as [-> | [-> | ->]]; simpl; [done| |]; by rewrite ?orb_true_r.
Qed.

Lemma put_user_missing (s : string) (r : Route) (hs : gmap string string)
    (b : object) (us : list User) :
  hs !! "content-type" = Some "application/json" →
  truthy (prop b "Firstname") = false ∨ truthy (prop b "Surname") = false →
  put_user s (mkRequest r hs b) us = (missing_put_fields, us).
Proof.
  intros Hct H. unfold put_user. rewrite (json_content_type _ _ _ Hct). simpl.
  destruct H as [-> | ->]; simpl; [done|]; by rewrite ?orb_true_r.
Qed.

(** ** The invariant holds in every reachable registry *)

Lemma strict_eq_refl (v : value) : compared_by_value v = true → strict_eq v v = true.
Proof.
  destruct v; simpl; try done.
  - intros _. by destruct b.
  - unfold PrimFloat.is_nan. by rewrite negb_involutive.
  - intros _. apply String.eqb_refl.
Qed.

Lemma distinct_app (l1 l2 : list value) :
  distinct (l1 ++ l2)
  ↔ distinct l1 ∧ distinct l2
    ∧ Forall (λ a, Forall (λ b, strict_eq a b = false) l2) l1.
Proof.
  induction l1 as [|a l1 IH]; simpl.
  - split; [intros H; by repeat split|by intros (_ & H & _)].
  - rewrite Forall_app, IH, Forall_cons. tauto.
Qed.


Lemma handle_distinct (req : Request) (us : list User) :
  distinct (map id us) → distinct (map id (snd (handle req us))).
Proof.
  intros Hd. unfold handle. destruct (route req) as [| | |s| |s|s]; simpl; try done.
  - unfold get_data_id. by destruct (find _ us).
  - unfold post_data. branches; simpl; try done.
    unfold push. rewrite map_app. apply distinct_app. repeat split; [done|..].
    + by constructor.
    + apply some_false in E2. apply Forall_map. simpl.
      eapply Forall_impl; [exact E2|]. intros u Hu. by constructor.
  - unfold delete_user. destruct (Z.eqb_spec (findIndex (λ user, strict_eq (id user) (VStr s)) us) (-1))
      as [E|E]; simpl; [done|].
    destruct (findIndex_present _ us E) as (before & x & after & -> & _ & _ & ->).
    rewrite splice1_middle. rewrite map_app in *. simpl in Hd.
    apply distinct_app in Hd as (H1 & [_ H2] & H3). apply distinct_app.
    repeat split; [done..|]. eapply Forall_impl; [exact H3|].
    intros a Ha. by inversion Ha.
  - unfold put_user. branches; simpl; try done.
    + apply negb_true_iff, Z.eqb_neq in E1.
      destruct (findIndex_present _ us E1) as (before & x & after & -> & Hx & _ & ->).
      rewrite assign_middle. apply strict_eq_string in Hx.
      rewrite map_app in *. simpl in *. by rewrite <- Hx.
    + apply negb_false_iff, Z.eqb_eq, findIndex_absent in E1.
      unfold push. rewrite map_app. apply distinct_app. repeat split; [done|..].
      * by constructor.
      * apply Forall_map. simpl. eapply Forall_impl; [exact E1|].
        intros u Hu. by constructor.
Qed.

Lemma run_distinct (reqs : list Request) (us : list User) :
  distinct (map id us) → distinct (map id (run reqs us)).
Proof.
  revert us. induction reqs as [|req reqs IH]; intros us Hd; [done|].
  simpl. apply IH. by apply handle_distinct.
Qed.

Lemma reachable_distinct (us : list User) : reachable us → distinct (map id us).
Proof.
  intros [reqs ->]. apply run_distinct. simpl.
  repeat split; by repeat constructor.
Qed.

Lemma reachable_seed : reachable users.
Proof. by exists []. Qed.

(** In a registry that satisfies the invariant, the record that carries a
    string id is the only one that does. *)
Lemma others_differ (s : string) (before after : list User) (u : User) :
  distinct (map id (before ++ u :: after)) → id u = VStr s →
  ∀ v, v ∈ before ++ after → id v ≠ VStr s.
Proof.
  intros Hd Hid.
  rewrite map_app in Hd. simpl in Hd. apply distinct_app in Hd as (_ & [Ha _] & Hb).
  rewrite Forall_map in Ha, Hb. rewrite Forall_forall in Ha, Hb.
  intros v [Hv|Hv]%elem_of_app Hvid.
  - specialize (Hb v Hv). inversion Hb as [|? ? Hvu _]; subst. simpl in Hvu.
    rewrite Hid, Hvid in Hvu. simpl in Hvu. by rewrite String.eqb_refl in Hvu.
  - specialize (Ha v Hv). simpl in Ha. rewrite Hid, Hvid in Ha. simpl in Ha.
    by rewrite String.eqb_refl in Ha.
Qed.

Lemma unique_match (s : string) (us : list User) (u : User) :
  distinct (map id us) → u ∈ us → id u = VStr s →
  ∃ before after, us = before ++ u :: after
                  ∧ ∀ v, v ∈ before ++ after → id v ≠ VStr s.
Proof.
  intros Hd Hu Hid. apply list_elem_of_split in Hu as (before & after & ->).
  exists before, after. split; [done|]. by apply (others_differ s before after u).
Qed.

(** ** Listing and creating *)

(** C8. [GET /data] answers 200 with every record of the registry, in the
    order of the array; a [POST /data] answered 201 has put its record
    after all the others and sends that record back; and from the two seed
    records, posting [{id:"3", Firstname:"Maria", Surname:"Virtanen"}] with a
    JSON content type is answered 201 with that record, after which
    [GET /data] lists the three records, the new one last. *)
Theorem listing_keeps_insertion_order :
  (∀ req us,
     handle (mkRequest GetData (headers req) (body req)) us
     = (mkResponse 200 (Some (VArr (map user_json us))), us))
  ∧ (∀ hs b us,
       status (fst (handle (mkRequest PostData hs b) us)) = 201 →
       ∃ u, handle (mkRequest PostData hs b) us
            = (mkResponse 201 (Some (user_json u)), us ++ [u])
            ∧ id u = prop b "id" ∧ Firstname u = prop b "Firstname"
            ∧ Surname u = prop b "Surname")
  ∧ handle post_maria users
    = (mkResponse 201
         (Some (VObj [("id", VStr "3"); ("Firstname", VStr "Maria");
                      ("Surname", VStr "Virtanen")])),
       users ++ [maria])
  ∧ fst (handle list_all (snd (handle post_maria users)))
    = mkResponse 200
        (Some (VArr
           [ VObj [("id", VStr "1"); ("Firstname", VStr "Jyri"); ("Surname", VStr "Kemppainen")];
             VObj [("id", VStr "2"); ("Firstname", VStr "Petri"); ("Surname", VStr "Laitinen")];
             VObj [("id", VStr "3"); ("Firstname", VStr "Maria"); ("Surname", VStr "Virtanen")] ])).
Proof.
  split; [done|]. split; [|split; vm_compute; reflexivity].
  intros hs b us H. unfold handle in *. simpl in *.
  apply post_data_created in H as (_ & _ & _ & _ & _ & _ & ->). simpl.
  eexists (mkUser _ _ _). split; [reflexivity|done].
Qed.

Lemma listing_keeps_insertion_order_witness :
  ∃ u, handle post_maria users
       = (mkResponse 201 (Some (user_json u)), users ++ [u])
       ∧ id u = VStr "3" ∧ Firstname u = VStr "Maria" ∧ Surname u = VStr "Virtanen".
Proof.
  apply (proj1 (proj2 listing_keeps_insertion_order)
           json_headers maria_body users).
  vm_compute. reflexivity.
Defined.

(** ** Update or create: [PUT /users/:user_id] *)

(** C1. A [PUT /users/:user_id] is never answered 404. When its content type
    is [application/json] and its body has a [Firstname] and a [Surname] that
    are not empty (truthy: for a string, any but the empty one), then: if a
    record of the registry carries the path parameter as id, the answer is 200
    and that record, found from the front, is replaced in place by one with
    the same id and the names of the body; if none does, the answer is 201, a
    new record is pushed at the end and [GET /data/:id] with the same id then
    answers 200 with it. In both cases the record sent back carries the path
    parameter as id, whatever the body holds under [id]. *)
Theorem put_updates_or_creates :
  ∀ (user_id : string) (hs : gmap string string) (b : object) (us : list User),
    status (fst (handle (mkRequest (PutUser user_id) hs b) us)) ≠ 404
    ∧ ∀ F S : value,
        hs !! "content-type" = Some "application/json" →
        b !! "Firstname" = Some F → truthy F = true →
        b !! "Surname" = Some S → truthy S = true →
        ((∃ u, u ∈ us ∧ id u = VStr user_id) →
           ∃ before old after,
             us = before ++ old :: after ∧ id old = VStr user_id
             ∧ (∀ v, v ∈ before → id v ≠ VStr user_id)
             ∧ handle (mkRequest (PutUser user_id) hs b) us
               = (mkResponse 200 (Some (user_json (mkUser (VStr user_id) F S))),
                  before ++ mkUser (VStr user_id) F S :: after))
        ∧ ((∀ u, u ∈ us → id u ≠ VStr user_id) →
             handle (mkRequest (PutUser user_id) hs b) us
             = (mkResponse 201 (Some (user_json (mkUser (VStr user_id) F S))),
                us ++ [mkUser (VStr user_id) F S])
             ∧ ∀ hs' b',
                 handle (mkRequest (GetDataId user_id) hs' b')
                        (us ++ [mkUser (VStr user_id) F S])
                 = (mkResponse 200 (Some (user_json (mkUser (VStr user_id) F S))),
                    us ++ [mkUser (VStr user_id) F S])).
Proof.
  intros user_id hs b us. split.
  { unfold handle, put_user. simpl. branches; simpl; lia. }
  intros F S Hct HF HFt HS HSt. unfold handle. simpl.
  apply prop_lookup in HF, HS.
  rewrite (put_user_valid user_id _ hs b us Hct) by congruence.
  rewrite HF, HS. cbv zeta. split.
  - intros Hex. destruct (first_match user_id us Hex) as (before & old & after & -> & Ho & Hb & Hi).
    exists before, old, after. repeat split; [done..|].
    rewrite Hi. destruct (Z.eqb_spec (Z.of_nat (length before)) (-1)) as [?|_]; [lia|].
    simpl negb. cbv iota. by rewrite assign_middle, at_index_middle.
  - intros Hno.
    rewrite (proj2 (findIndex_absent _ us) (proj2 (no_match_iff user_id us) Hno)).
    split; [done|]. intros hs' b'. by apply get_data_id_first.
Qed.

Lemma put_updates_or_creates_witness :
  (∃ before old after,
     users = before ++ old :: after ∧ id old = VStr "1"
     ∧ (∀ v, v ∈ before → id v ≠ VStr "1")
     ∧ handle put_louvre users
       = (mkResponse 200 (Some (user_json louvre)), before ++ louvre :: after))
  ∧ handle put_liberty users = (mkResponse 201 (Some (user_json liberty)), users ++ [liberty])
  ∧ ∀ hs' b',
      handle (mkRequest (GetDataId "3") hs' b') (users ++ [liberty])
      = (mkResponse 200 (Some (user_json liberty)), users ++ [liberty]).
Proof.
  split.
  - apply (proj2 (put_updates_or_creates "1" json_headers louvre_body users)
             (VStr "Louvre") (VStr "Museum")); try reflexivity.
    exists (mkUser (VStr "1") (VStr "Jyri") (VStr "Kemppainen")).
    split; [left|reflexivity].
  - apply (proj2 (put_updates_or_creates "3" json_headers liberty_body users)
             (VStr "Statue") (VStr "Liberty")); try reflexivity.
    intros u Hu. repeat (apply elem_of_cons in Hu as [->|Hu]; [discriminate|]).
    by apply elem_of_nil in Hu.
Defined.

(** ** Validation in [POST /data] *)




(** C3. A [POST /data] with a JSON content type whose body has the keys
    [id], [Firstname] and [Surname] and at least one key besides is answered
    400 and changes nothing; when the three values are not empty (truthy) the
    answer is the error "Only id, Firstname, and Surname are allowed in the
    request body". Hence a [POST /data] answered 201 had a body whose keys
    are exactly [id], [Firstname] and [Surname]. *)
Theorem post_extra_key_rejected :
  (∀ (hs : gmap string string) (b : object) (us : list User) (k : string),
     hs !! "content-type" = Some "application/json" →
     is_Some (b !! "id") → is_Some (b !! "Firstname") → is_Some (b !! "Surname") →
     k ≠ "id" → k ≠ "Firstname" → k ≠ "Surname" → is_Some (b !! k) →
     status (fst (handle (mkRequest PostData hs b) us)) = 400
     ∧ snd (handle (mkRequest PostData hs b) us) = us
     ∧ (truthy (prop b "id") = true → truthy (prop b "Firstname") = true →
        truthy (prop b "Surname") = true →
        handle (mkRequest PostData hs b) us
        = (mkResponse 400
             (Some (error "Only id, Firstname, and Surname are allowed in the request body")),
           us)))
  ∧ (∀ (hs : gmap string string) (b : object) (us : list User),
       status (fst (handle (mkRequest PostData hs b) us)) = 201 →
       dom b = ({["id"; "Firstname"; "Surname"]} : gset string)).
Proof.
  split.
  - intros hs b us k Hct Hi Hf Hs Hk1 Hk2 Hk3 Hk.
    pose proof (four_keys b k Hi Hf Hs Hk1 Hk2 Hk3 Hk) as Hfour.
    assert ((keys_length b =? 3) = false) as Hlen.
    { apply Z.eqb_neq. unfold keys_length. lia. }
    unfold handle, post_data. simpl.
    rewrite (json_content_type _ _ _ Hct), Hlen. simpl.
    split; [|split].
    + branches; reflexivity.
    + branches; reflexivity.
    + by intros -> -> ->.
  - intros hs b us H. unfold handle in H. simpl in H.
    apply post_data_created in H as (_ & Hi & Hf & Hs & Hlen & _). simpl in *.
    apply three_keys; [by apply truthy_prop_is_Some..|].
    unfold keys_length in Hlen. lia.
Qed.

Lemma post_extra_key_rejected_witness :
  handle (mkRequest PostData json_headers extra_body) users
  = (mkResponse 400
       (Some (error "Only id, Firstname, and Surname are allowed in the request body")),
     users)
  ∧ dom maria_body = ({["id"; "Firstname"; "Surname"]} : gset string).
Proof.
  split.
  - apply (proj1 post_extra_key_rejected json_headers extra_body users "extra");
      first [reflexivity | discriminate | (eexists; reflexivity)].
  - apply (proj2 post_extra_key_rejected json_headers maria_body users).
    vm_compute. reflexivity.
Defined.

(** C4. The order of the checks. In [POST /data] and in [PUT /users/:user_id]
    a content type that is not [application/json] is answered 415 whatever
    the body and the registry hold. With a JSON content type, a required
    field that is missing or empty is answered with the missing-fields 400,
    whatever the number of keys and whether or not the id is taken. Only when
    the three fields of a POST are there do the number of keys and then the
    uniqueness of the id decide. *)
Theorem validation_order :
  ∀ (hs : gmap string string) (b : object) (us : list User),
    (hs !! "content-type" ≠ Some "application/json" →
       handle (mkRequest PostData hs b) us = (unsupported_media_type, us)
       ∧ ∀ user_id, handle (mkRequest (PutUser user_id) hs b) us
                    = (unsupported_media_type, us))
    ∧ (hs !! "content-type" = Some "application/json" →
         (truthy (prop b "id") = false ∨ truthy (prop b "Firstname") = false
          ∨ truthy (prop b "Surname") = false →
            handle (mkRequest PostData hs b) us = (missing_post_fields, us))
         ∧ (truthy (prop b "Firstname") = false ∨ truthy (prop b "Surname") = false →
            ∀ user_id, handle (mkRequest (PutUser user_id) hs b) us
                       = (missing_put_fields, us))
         ∧ (truthy (prop b "id") = true → truthy (prop b "Firstname") = true →
            truthy (prop b "Surname") = true →
            handle (mkRequest PostData hs b) us
            = if negb (keys_length b =? 3) then
                (mkResponse 400
                   (Some (error "Only id, Firstname, and Surname are allowed in the request body")),
                 us)
              else if some (λ user, strict_eq (id user) (prop b "id")) us then
                (mkResponse 400 (Some (error "User with this ID already exists")), us)
              else
                (mkResponse 201
                   (Some (user_json (mkUser (prop b "id") (prop b "Firstname")
                                            (prop b "Surname")))),
                 us ++ [mkUser (prop b "id") (prop b "Firstname") (prop b "Surname")]))).
Proof.
  intros hs b us. split.
  - intros Hct. split; [by apply post_data_unsupported|].
    intros user_id. by apply put_user_unsupported.
  - intros Hct. split; [|split].
    + by apply post_data_missing.
    + intros H user_id. by apply put_user_missing.
    + intros Hi Hf Hs. unfold handle, post_data. simpl.
      rewrite (json_content_type _ _ _ Hct), Hi, Hf, Hs. reflexivity.
Qed.

Lemma validation_order_witness :
  handle (mkRequest PostData text_headers ∅) users = (unsupported_media_type, users)
  ∧ handle (mkRequest (PutUser "1") text_headers ∅) users = (unsupported_media_type, users)
  ∧ handle (mkRequest PostData json_headers id_only_body) users
    = (missing_post_fields, users)
  ∧ handle (mkRequest (PutUser "1") json_headers id_only_body) users
    = (missing_put_fields, users)
  ∧ handle (mkRequest PostData json_headers taken_body) users
    = (mkResponse 400 (Some (error "User with this ID already exists")), users).
Proof.
  split; [|split; [|split; [|split]]].
  - apply (proj1 (validation_order text_headers ∅ users)). discriminate.
  - apply (proj1 (validation_order text_headers ∅ users)). discriminate.
  - apply (proj2 (validation_order json_headers id_only_body users)); [reflexivity|].
    right. left. reflexivity.
  - apply (proj2 (validation_order json_headers id_only_body users)); [reflexivity|].
    left. reflexivity.
  - apply (proj2 (validation_order json_headers taken_body users)); reflexivity.
Defined.

(** C10. An empty string counts as a missing field. A [POST /data] with a
    JSON content type whose body holds the empty string under [id],
    [Firstname] or [Surname] is answered 400 with the error
    "Missing required fields: id, Firstname, Surname"; a
    [PUT /users/:user_id] with a JSON content type whose body holds the
    empty string under [Firstname] or [Surname] is answered 400 with
    "Missing required fields: Firstname, Surname". Neither changes the
    registry. *)
Theorem empty_string_is_missing :
  ∀ (hs : gmap string string) (b : object) (us : list User),
    hs !! "content-type" = Some "application/json" →
    (b !! "id" = Some (VStr "") ∨ b !! "Firstname" = Some (VStr "")
     ∨ b !! "Surname" = Some (VStr "") →
       handle (mkRequest PostData hs b) us = (missing_post_fields, us))
    ∧ (b !! "Firstname" = Some (VStr "") ∨ b !! "Surname" = Some (VStr "") →
       ∀ user_id, handle (mkRequest (PutUser user_id) hs b) us
                  = (missing_put_fields, us)).
Proof.
  intros hs b us Hct. split.
  - intros H. apply post_data_missing; [done|].
    destruct H as [H|[H|H]]; rewrite (prop_lookup _ _ _ H); auto.
  - intros H user_id. apply put_user_missing; [done|].
    destruct H as [H|H]; rewrite (prop_lookup _ _ _ H); auto.
Qed.

Lemma empty_string_is_missing_witness :
  handle (mkRequest PostData json_headers empty_id_body) users
  = (missing_post_fields, users)
  ∧ handle (mkRequest (PutUser "7") json_headers empty_surname_body) users
    = (missing_put_fields, users).
Proof.
  split.
  - apply (proj1 (empty_string_is_missing json_headers empty_id_body users eq_refl)).
    left. reflexivity.
  - apply (proj2 (empty_string_is_missing json_headers empty_surname_body users eq_refl)).
    right. reflexivity.
Defined.

(** ** Lookup and removal by id *)

(** C5. In every registry the server can reach, [GET /data/:id] answers 200
    with the record that carries the id, when there is one, and 404 with
    [{"error":"User not found"}] when there is none. The registry stays as
    it was. *)
Theorem get_by_id_finds_the_record :
  ∀ (us : list User) (s : string) (hs : gmap string string) (b : object),
    reachable us →
    (∀ u, u ∈ us → id u = VStr s →
       handle (mkRequest (GetDataId s) hs b) us
       = (mkResponse 200 (Some (user_json u)), us))
    ∧ ((∀ u, u ∈ us → id u ≠ VStr s) →
       handle (mkRequest (GetDataId s) hs b) us
       = (mkResponse 404 (Some (error "User not found")), us)).
Proof.
  intros us s hs b Hr. unfold handle. simpl. split.
  - intros u Hu Hid.
    destruct (unique_match s us u (reachable_distinct us Hr) Hu Hid)
      as (before & after & -> & Hothers).
    apply get_data_id_first; [|done].
    intros v Hv. apply Hothers. apply elem_of_app. by left.
  - apply get_data_id_absent.
Qed.

Lemma get_by_id_finds_the_record_witness :
  handle (mkRequest (GetDataId "2") ∅ ∅) users
  = (mkResponse 200 (Some (user_json petri)), users)
  ∧ handle (mkRequest (GetDataId "9") ∅ ∅) users = (user_not_found, users).
Proof.
  split.
  - apply (proj1 (get_by_id_finds_the_record users "2" ∅ ∅ reachable_seed) petri).
    + right. left.
    + reflexivity.
  - apply (proj2 (get_by_id_finds_the_record users "9" ∅ ∅ reachable_seed)).
    intros u Hu. repeat (apply elem_of_cons in Hu as [->|Hu]; [discriminate|]).
    by apply elem_of_nil in Hu.
Defined.

(** C6. In every registry the server can reach, [DELETE /user/:user_id] is
    answered 404 with [{"error":"user not found"}] and changes nothing when
    no record carries the id. When a record does, that record is taken out of
    the registry, the answer is 204 without a body, and [GET /data/:id] with
    the same id is answered 404 afterwards. *)
Theorem delete_by_id :
  ∀ (us : list User) (s : string) (hs : gmap string string) (b : object),
    reachable us →
    ((∀ u, u ∈ us → id u ≠ VStr s) →
       handle (mkRequest (DeleteUser s) hs b) us
       = (mkResponse 404 (Some (error "user not found")), us))
    ∧ (∀ u, u ∈ us → id u = VStr s →
       ∃ before after,
         us = before ++ u :: after
         ∧ handle (mkRequest (DeleteUser s) hs b) us
           = (mkResponse 204 None, before ++ after)
         ∧ ∀ hs' b',
             handle (mkRequest (GetDataId s) hs' b') (before ++ after)
             = (mkResponse 404 (Some (error "User not found")), before ++ after)).
Proof.
  intros us s hs b Hr. unfold handle. simpl. split.
  - apply delete_user_absent.
  - intros u Hu Hid.
    destruct (unique_match s us u (reachable_distinct us Hr) Hu Hid)
      as (before & after & -> & Hothers).
    exists before, after. split; [done|]. split.
    + apply delete_user_first; [|done].
      intros v Hv. apply Hothers. apply elem_of_app. by left.
    + intros hs' b'. by apply get_data_id_absent.
Qed.

Lemma delete_by_id_witness :
  handle (mkRequest (DeleteUser "9") ∅ ∅) users
  = (mkResponse 404 (Some (error "user not found")), users)
  ∧ ∃ before after,
      users = before ++ petri :: after
      ∧ handle (mkRequest (DeleteUser "2") ∅ ∅) users
        = (mkResponse 204 None, before ++ after)
      ∧ ∀ hs' b',
          handle (mkRequest (GetDataId "2") hs' b') (before ++ after)
          = (user_not_found, before ++ after).
Proof.
  split.
  - apply (proj1 (delete_by_id users "9" ∅ ∅ reachable_seed)).
    intros u Hu. repeat (apply elem_of_cons in Hu as [->|Hu]; [discriminate|]).
    by apply elem_of_nil in Hu.
  - apply (proj2 (delete_by_id users "2" ∅ ∅ reachable_seed) petri).
    + right. left.
    + reflexivity.
Defined.

(** C9. The frame of a successful delete. When [DELETE /user/:user_id] is
    answered 204, the registry was [before ++ u :: after] where [u] carries
    the id and no record of [before] does, and it is [before ++ after]
    afterwards: one record is gone, all the others are there, unchanged and in
    the same order. In a registry the server can reach no record of [after]
    carries the id either, so that [u] is the one record with that id. *)
Theorem delete_removes_one_record :
  ∀ (us : list User) (s : string) (hs : gmap string string) (b : object),
    status (fst (handle (mkRequest (DeleteUser s) hs b) us)) = 204 →
    ∃ before u after,
      us = before ++ u :: after
      ∧ id u = VStr s
      ∧ (∀ v, v ∈ before → id v ≠ VStr s)
      ∧ handle (mkRequest (DeleteUser s) hs b) us
        = (mkResponse 204 None, before ++ after)
      ∧ (reachable us → ∀ v, v ∈ after → id v ≠ VStr s).
Proof.
  intros us s hs b. unfold handle. simpl. intros H.
  assert (findIndex (λ user, strict_eq (id user) (VStr s)) us ≠ -1) as Hi.
  { intros E. unfold delete_user in H. rewrite E in H. discriminate. }
  destruct (findIndex_present _ us Hi) as (before & u & after & -> & Hu & Hb & _).
  apply strict_eq_string in Hu. pose proof (proj1 (no_match_iff s before) Hb) as Hb'.
  exists before, u, after. repeat split; [done..|by apply delete_user_first|].
  intros Hr v Hv.
  apply (others_differ s before after u (reachable_distinct _ Hr) Hu).
  apply elem_of_app. by right.
Qed.

Lemma delete_removes_one_record_witness :
  ∃ before u after,
    users = before ++ u :: after
    ∧ id u = VStr "1"
    ∧ (∀ v, v ∈ before → id v ≠ VStr "1")
    ∧ handle (mkRequest (DeleteUser "1") ∅ ∅) users
      = (mkResponse 204 None, before ++ after)
    ∧ (reachable users → ∀ v, v ∈ after → id v ≠ VStr "1").
Proof.
  apply (delete_removes_one_record users "1" ∅ ∅). reflexivity.
Defined.

(** ** Uniqueness of ids *)




(** ** What one request does to the registry *)

Lemma content_type_json_inv (req : Request) :
  content_type_not_json req = false →
  headers req !! "content-type" = Some "application/json".
Proof.
  unfold content_type_not_json. destruct (headers req !! "content-type") as [ct|]; [|done].
  rewrite negb_false_iff. by intros ->%String.eqb_eq.
Qed.

Lemma find_app_last {A : Type} (p : A → bool) (l : list A) (x : A) :
  p x = false → find p (l ++ [x]) = find p l.
Proof.
  intros Hx. induction l as [|y l IH]; simpl; [by rewrite Hx|]. by destruct (p y).
Qed.

Lemma find_skip {A : Type} (p : A → bool) (before after : list A) (x : A) :
  p x = false → find p (before ++ x :: after) = find p (before ++ after).
Proof.
  intros Hx. induction before as [|y l IH]; simpl; [by rewrite Hx|]. by destruct (p y).
Qed.

Lemma strict_eq_reference (a v : value) :
  compared_by_reference v = true → strict_eq a v = false.
Proof. by destruct v, a. Qed.

(** The four things a request can do: leave the registry alone, push one
    record (201), take one record out (204), or overwrite one record by one
    with the same id (200). *)
Lemma handle_cases (req : Request) (us : list User) :
  (snd (handle req us) = us
   ∧ (is_get (route req) = true ∧ status (fst (handle req us)) = 200
      ∨ is_get (route req) = true ∧ status (fst (handle req us)) = 404
      ∨ is_get (route req) = false ∧ 400 ≤ status (fst (handle req us))))
  ∨ (∃ u, handle req us = (mkResponse 201 (Some (user_json u)), us ++ [u])
          ∧ id u = addressed_id req ∧ well_formed u
          ∧ Forall (λ v, strict_eq (id v) (id u) = false) us)
  ∨ (∃ before u after,
       us = before ++ u :: after
       ∧ handle req us = (mkResponse 204 None, before ++ after)
       ∧ (∃ s, id u = VStr s ∧ addressed_id req = VStr s)
       ∧ Forall (λ v, strict_eq (id v) (id u) = false) before)
  ∨ (∃ before old new after,
       us = before ++ old :: after
       ∧ handle req us = (mkResponse 200 (Some (user_json new)), before ++ new :: after)
       ∧ (∃ s, id old = VStr s ∧ id new = VStr s ∧ addressed_id req = VStr s)
       ∧ well_formed new
       ∧ Forall (λ v, strict_eq (id v) (id new) = false) before).
Proof.
  unfold handle, addressed_id. destruct (route req) as [| | |s| |s|s] eqn:Hroute; simpl.
  - left. split; [done|]. by left.
  - left. split; [done|]. by left.
  - left. split; [done|]. by left.
  - left. unfold get_data_id. destruct (find _ us); simpl; split; auto.
  - unfold post_data. branches; simpl; try (left; split; [done|]; right; right; split; [done|lia]).
    right. left. eexists (mkUser _ _ _). split; [reflexivity|].
    apply orb_false_elim in E0 as [E0 E4]. apply orb_false_elim in E0 as [E0 E5].
    rewrite !negb_false_iff in *. simpl. repeat split; try done.
    + intros Hu. simpl in Hu. by rewrite Hu in E0.
    + by apply some_false.
  - unfold delete_user.
    destruct (Z.eqb_spec (findIndex (λ user, strict_eq (id user) (VStr s)) us) (-1)) as [E|E].
    + left. simpl. split; [done|]. right. right. split; [done|lia].
    + right. right. left.
      destruct (findIndex_present _ us E) as (before & u & after & -> & Hu & Hb & ->).
      apply strict_eq_string in Hu. exists before, u, after.
      rewrite splice1_middle. repeat split; [by exists s|by rewrite Hu].
  - unfold put_user. branches; simpl; try (left; split; [done|]; right; right; split; [done|lia]).
    + right. right. right. apply negb_true_iff, Z.eqb_neq in E1.
      apply orb_false_elim in E0 as [HF HS]. rewrite !negb_false_iff in *.
      destruct (findIndex_present _ us E1) as (before & old & after & -> & Ho & Hb & ->).
      apply strict_eq_string in Ho. rewrite assign_middle, at_index_middle.
      exists before, old, (mkUser (VStr s) (prop (body req) "Firstname")
                                  (prop (body req) "Surname")), after.
      repeat split; [by exists s|done..].
    + right. left. apply negb_false_iff, Z.eqb_eq, findIndex_absent in E1.
      apply orb_false_elim in E0 as [HF HS]. rewrite !negb_false_iff in *.
      eexists (mkUser _ _ _). split; [reflexivity|]. repeat split; done.
Qed.

(** X1. A request answered with a status of 400 or more, and every request
    on a GET route whatever its answer, leaves the registry exactly as it
    was. *)
Theorem failures_and_reads_change_nothing :
  ∀ (req : Request) (us : list User),
    400 ≤ status (fst (handle req us)) ∨ is_get (route req) = true →
    snd (handle req us) = us.
Proof.
  intros req us [Hs|Hg].
  - destruct (handle_cases req us) as [[H _]|[(u & E & _)|[(b & u & a & _ & E & _)|
      (b & o & n & a & _ & E & _)]]]; [done|rewrite E in Hs; simpl in Hs; lia..].
  - unfold handle. destruct (route req); try discriminate; try reflexivity.
    unfold get_data_id. by destruct (find _ us).
Qed.

Lemma failures_and_reads_change_nothing_witness :
  snd (handle (mkRequest PostData json_headers taken_body) users) = users
  ∧ snd (handle (mkRequest (GetDataId "1") ∅ ∅) users) = users.
Proof.
  split.
  - apply failures_and_reads_change_nothing. left. vm_compute. discriminate.
  - apply failures_and_reads_change_nothing. right. reflexivity.
Defined.

(** X2. The status codes of each route: the three static GET routes always
    answer 200; [GET /data/:id] answers 200 or 404; [POST /data] 201, 400 or
    415; [DELETE /user/:user_id] 204 or 404; [PUT /users/:user_id] 200, 201,
    400 or 415. The answer has no body exactly when the status is 204. *)
Theorem status_codes_by_route :
  ∀ (req : Request) (us : list User),
    match route req with
    | GetHome | GetIndex | GetData => status (fst (handle req us)) = 200
    | GetDataId _ =>
        status (fst (handle req us)) = 200 ∨ status (fst (handle req us)) = 404
    | PostData =>
        status (fst (handle req us)) = 201 ∨ status (fst (handle req us)) = 400
        ∨ status (fst (handle req us)) = 415
    | DeleteUser _ =>
        status (fst (handle req us)) = 204 ∨ status (fst (handle req us)) = 404
    | PutUser _ =>
        status (fst (handle req us)) = 200 ∨ status (fst (handle req us)) = 201
        ∨ status (fst (handle req us)) = 400 ∨ status (fst (handle req us)) = 415
    end
    ∧ (payload (fst (handle req us)) = None ↔ status (fst (handle req us)) = 204).
Proof.
  intros req us. unfold handle. destruct (route req) as [| | |s| |s|s]; simpl.
  - split; [done|]. split; discriminate.
  - split; [done|]. split; discriminate.
  - split; [done|]. split; discriminate.
  - unfold get_data_id. destruct (find _ us); simpl; (split; [auto|split; discriminate]).
  - unfold post_data. branches; simpl; (split; [auto|split; discriminate]).
  - unfold delete_user. branches; simpl; (split; [auto|split; done]).
  - unfold put_user. branches; simpl; (split; [auto 6|split; discriminate]).
Qed.

(** X3. The number of records changes by one at most: it grows by one
    exactly when the answer is 201, shrinks by one exactly when the answer is
    204, and stays the same otherwise. *)
Theorem registry_length :
  ∀ (req : Request) (us : list User),
    Z.of_nat (length (snd (handle req us)))
    = Z.of_nat (length us)
      + (if status (fst (handle req us)) =? 201 then 1 else 0)
      - (if status (fst (handle req us)) =? 204 then 1 else 0).
Proof.
  intros req us.
  destruct (handle_cases req us) as [[H Hs]|[(u & E & _)|[(b & u & a & -> & E & _)|
    (b & o & n & a & -> & E & _)]]].
  - rewrite H.
    destruct Hs as [[_ Hs]|[[_ Hs]|[_ Hs]]];
      destruct (Z.eqb_spec (status (fst (handle req us))) 201);
      destruct (Z.eqb_spec (status (fst (handle req us))) 204); lia.
  - rewrite E. simpl. rewrite length_app. simpl. lia.
  - rewrite E. simpl. rewrite !length_app. simpl. lia.
  - rewrite E. simpl. rewrite !length_app. simpl. lia.
Qed.

(** X4. What one request can do to the registry: nothing, or push one
    record at the end, or take one record out, or put in the place of one
    record a record with the same id. Every other record stays, in the same
    order. *)
Theorem request_effect :
  ∀ (req : Request) (us : list User),
    snd (handle req us) = us
    ∨ (∃ u, snd (handle req us) = us ++ [u])
    ∨ (∃ before u after,
         us = before ++ u :: after
         ∧ (snd (handle req us) = before ++ after
            ∨ ∃ new, id new = id u ∧ snd (handle req us) = before ++ new :: after)).
Proof.
  intros req us.
  destruct (handle_cases req us) as [[H _]|[(u & E & _)|[(b & u & a & -> & E & _)|
    (b & o & n & a & -> & E & (s & Ho & Hn & _) & _)]]].
  - by left.
  - right. left. exists u. by rewrite E.
  - right. right. exists b, u, a. split; [done|]. left. by rewrite E.
  - right. right. exists b, o, a. split; [done|]. right. exists n.
    split; [congruence|by rewrite E].
Qed.

(** ** How requests compose *)

(** A request answered 201 pushed a record that carries the addressed id,
    which no record before it carries. *)
Lemma created_inv (req : Request) (us : list User) :
  status (fst (handle req us)) = 201 →
  ∃ u, handle req us = (mkResponse 201 (Some (user_json u)), us ++ [u])
       ∧ id u = addressed_id req
       ∧ Forall (λ v, strict_eq (id v) (id u) = false) us.
Proof.
  intros Hs.
  destruct (handle_cases req us) as [[_ H]|[(u & E & Hu & _ & Hno)|[(b & u & a & _ & E & _)|
    (b & o & n & a & _ & E & _)]]].
  - destruct H as [[_ H]|[[_ H]|[_ H]]]; lia.
  - by exists u.
  - rewrite E in Hs. discriminate.
  - rewrite E in Hs. discriminate.
Qed.

(** X5. [PUT /users/:user_id] is idempotent: sending the same request a
    second time leaves the registry as the first one left it and is answered
    with the same body; the status is the same too, except that 200 follows
    a 201. *)
Theorem put_is_idempotent :
  ∀ (s : string) (hs : gmap string string) (b : object) (us : list User),
    snd (handle (mkRequest (PutUser s) hs b) (snd (handle (mkRequest (PutUser s) hs b) us)))
    = snd (handle (mkRequest (PutUser s) hs b) us)
    ∧ payload (fst (handle (mkRequest (PutUser s) hs b)
                           (snd (handle (mkRequest (PutUser s) hs b) us))))
      = payload (fst (handle (mkRequest (PutUser s) hs b) us))
    ∧ status (fst (handle (mkRequest (PutUser s) hs b)
                          (snd (handle (mkRequest (PutUser s) hs b) us))))
      = (if status (fst (handle (mkRequest (PutUser s) hs b) us)) =? 201 then 200
         else status (fst (handle (mkRequest (PutUser s) hs b) us))).
Proof.
  intros s hs b us. unfold handle. simpl. unfold put_user.
  destruct (content_type_not_json _); [done|].
  destruct (negb _ || negb _); [done|]. simpl.
  set (p := λ user : User, strict_eq (id user) (VStr s)).
  set (new := mkUser (VStr s) (prop b "Firstname") (prop b "Surname")).
  assert (p new = true) as Hnew by apply String.eqb_refl.
  destruct (Z.eqb_spec (findIndex p us) (-1)) as [E|E]; simpl.
  - apply findIndex_absent in E. unfold push.
    rewrite (findIndex_first p us [] new E Hnew).
    destruct (Z.eqb_spec (Z.of_nat (length us)) (-1)) as [?|_]; [lia|]. simpl.
    by rewrite assign_middle, at_index_middle.
  - destruct (findIndex_present p us E) as (before & old & after & -> & _ & Hb & ->).
    rewrite assign_middle, at_index_middle. simpl.
    rewrite (findIndex_first p before after new Hb Hnew).
    destruct (Z.eqb_spec (Z.of_nat (length before)) (-1)) as [?|_]; [lia|]. simpl.
    by rewrite assign_middle, at_index_middle.
Qed.

(** X6. [POST /data] is not idempotent: when a POST was answered 201 and its
    id is a string, a boolean or a number, the same request sent again is
    answered 400 "User with this ID already exists" and adds nothing. *)
Theorem post_twice_is_rejected :
  ∀ (hs : gmap string string) (b : object) (us : list User),
    status (fst (handle (mkRequest PostData hs b) us)) = 201 →
    compared_by_value (prop b "id") = true →
    handle (mkRequest PostData hs b) (snd (handle (mkRequest PostData hs b) us))
    = (mkResponse 400 (Some (error "User with this ID already exists")),
       snd (handle (mkRequest PostData hs b) us)).
Proof.
  intros hs b us H Hv. unfold handle in *. simpl in *.
  apply post_data_created in H as (Hct & Hi & Hf & Hs & Hlen & _ & ->). simpl in *.
  unfold post_data. simpl. rewrite Hct, Hi, Hf, Hs, Hlen. simpl.
  unfold some, push. rewrite existsb_app. simpl.
  by rewrite (strict_eq_refl _ Hv), orb_true_r.
Qed.

Lemma post_twice_is_rejected_witness :
  handle post_maria (snd (handle post_maria users))
  = (mkResponse 400 (Some (error "User with this ID already exists")),
     snd (handle post_maria users)).
Proof.
  apply (post_twice_is_rejected json_headers maria_body users); reflexivity.
Defined.

(** X7. The uniqueness test of [POST /data] never rejects an id that is an
    array or an object: with a JSON content type, such an id, two names that
    are not empty and exactly three keys, the request is answered 201 whatever
    the registry holds, so that sending it twice stores two records with that
    id. *)
Theorem post_reference_id_always_created :
  ∀ (hs : gmap string string) (b : object) (us : list User),
    hs !! "content-type" = Some "application/json" →
    compared_by_reference (prop b "id") = true →
    truthy (prop b "Firstname") = true → truthy (prop b "Surname") = true →
    size b = 3%nat →
    handle (mkRequest PostData hs b) us
    = (mkResponse 201
         (Some (user_json (mkUser (prop b "id") (prop b "Firstname") (prop b "Surname")))),
       us ++ [mkUser (prop b "id") (prop b "Firstname") (prop b "Surname")])
    ∧ run [mkRequest PostData hs b; mkRequest PostData hs b] us
      = us ++ [mkUser (prop b "id") (prop b "Firstname") (prop b "Surname");
               mkUser (prop b "id") (prop b "Firstname") (prop b "Surname")].
Proof.
  intros hs b us Hct Hi Hf Hs Hsize.
  assert (∀ us', handle (mkRequest PostData hs b) us'
                 = (mkResponse 201
                      (Some (user_json (mkUser (prop b "id") (prop b "Firstname")
                                               (prop b "Surname")))),
                    us' ++ [mkUser (prop b "id") (prop b "Firstname") (prop b "Surname")]))
    as Hpost.
  { intros us'. unfold handle, post_data. simpl.
    rewrite (json_content_type _ _ _ Hct), Hf, Hs. unfold keys_length. rewrite Hsize.
    assert (truthy (prop b "id") = true) as -> by (by destruct (prop b "id")).
    simpl.
    assert (some (λ user, strict_eq (id user) (prop b "id")) us' = false) as ->; [|done].
    apply some_false, Forall_forall. intros u _. by apply strict_eq_reference. }
  split; [apply Hpost|].
  unfold run. simpl. rewrite !Hpost. simpl. by rewrite <- app_assoc.
Qed.

Lemma post_reference_id_always_created_witness :
  run [mkRequest PostData json_headers object_id_body;
       mkRequest PostData json_headers object_id_body] users
  = users ++ [object_id_user; object_id_user].
Proof.
  apply (post_reference_id_always_created json_headers object_id_body users);
    reflexivity.
Defined.

(** X8. In a registry the server can reach, a [DELETE /user/:user_id]
    answered 204 is answered 404 when it is sent again, and the second one
    changes nothing. *)
Theorem delete_twice_is_not_found :
  ∀ (us : list User) (s : string) (hs : gmap string string) (b : object),
    reachable us →
    status (fst (handle (mkRequest (DeleteUser s) hs b) us)) = 204 →
    handle (mkRequest (DeleteUser s) hs b) (snd (handle (mkRequest (DeleteUser s) hs b) us))
    = (mkResponse 404 (Some (error "user not found")),
       snd (handle (mkRequest (DeleteUser s) hs b) us)).
Proof.
  intros us s hs b Hr. unfold handle. simpl. intros H.
  assert (findIndex (λ user, strict_eq (id user) (VStr s)) us ≠ -1) as Hi.
  { intros E. unfold delete_user in H. rewrite E in H. discriminate. }
  destruct (findIndex_present _ us Hi) as (before & u & after & -> & Hu & Hb & _).
  apply strict_eq_string in Hu. pose proof (proj1 (no_match_iff s before) Hb) as Hb'.
  rewrite (delete_user_first s _ before after u Hb' Hu). simpl.
  apply delete_user_absent.
  by apply (others_differ s before after u (reachable_distinct _ Hr)).
Qed.

Lemma delete_twice_is_not_found_witness :
  handle (mkRequest (DeleteUser "2") ∅ ∅) (snd (handle (mkRequest (DeleteUser "2") ∅ ∅) users))
  = (mkResponse 404 (Some (error "user not found")),
     snd (handle (mkRequest (DeleteUser "2") ∅ ∅) users)).
Proof.
  apply (delete_twice_is_not_found users "2" ∅ ∅ reachable_seed). reflexivity.
Defined.

(** X9. Create, then read: after a [POST /data] answered 201 whose id is a
    string, [GET /data/:id] with that id is answered 200 with the body the
    POST was answered with. *)
Theorem post_then_get :
  ∀ (hs : gmap string string) (b : object) (us : list User) (i : string),
    status (fst (handle (mkRequest PostData hs b) us)) = 201 →
    b !! "id" = Some (VStr i) →
    ∀ hs' b',
      handle (mkRequest (GetDataId i) hs' b') (snd (handle (mkRequest PostData hs b) us))
      = (mkResponse 200 (payload (fst (handle (mkRequest PostData hs b) us))),
         snd (handle (mkRequest PostData hs b) us)).
Proof.
  intros hs b us i H Hid hs' b'.
  destruct (created_inv _ us H) as (u & -> & Hu & Hno).
  unfold addressed_id in Hu. simpl in Hu. rewrite (prop_lookup _ _ _ Hid) in Hu.
  rewrite Hu in Hno. unfold handle. simpl.
  apply get_data_id_first; [by apply no_match_iff|done].
Qed.

Lemma post_then_get_witness :
  handle (mkRequest (GetDataId "3") ∅ ∅) (snd (handle post_maria users))
  = (mkResponse 200 (payload (fst (handle post_maria users))),
     snd (handle post_maria users)).
Proof.
  apply (post_then_get json_headers maria_body users "3"); reflexivity.
Defined.

(** X10. Create, then delete: after a [POST /data] with a string id or a
    [PUT /users/:user_id] was answered 201, [DELETE /user/:user_id] with
    that id is answered 204 and the registry is what it was before the
    record was created. *)
Theorem create_then_delete_restores :
  (∀ (hs : gmap string string) (b : object) (us : list User) (i : string),
     status (fst (handle (mkRequest PostData hs b) us)) = 201 →
     b !! "id" = Some (VStr i) →
     ∀ hs' b',
       handle (mkRequest (DeleteUser i) hs' b') (snd (handle (mkRequest PostData hs b) us))
       = (mkResponse 204 None, us))
  ∧ (∀ (s : string) (hs : gmap string string) (b : object) (us : list User),
       status (fst (handle (mkRequest (PutUser s) hs b) us)) = 201 →
       ∀ hs' b',
         handle (mkRequest (DeleteUser s) hs' b')
                (snd (handle (mkRequest (PutUser s) hs b) us))
         = (mkResponse 204 None, us)).
Proof.
  split.
  - intros hs b us i H Hid hs' b'.
    destruct (created_inv _ us H) as (u & -> & Hu & Hno).
    unfold addressed_id in Hu. simpl in Hu. rewrite (prop_lookup _ _ _ Hid) in Hu.
    rewrite Hu in Hno. unfold handle. simpl.
    rewrite (delete_user_first i _ us [] u); [by rewrite app_nil_r| |done].
    by apply no_match_iff.
  - intros s hs b us H hs' b'.
    destruct (created_inv _ us H) as (u & -> & Hu & Hno).
    unfold addressed_id in Hu. simpl in Hu.
    rewrite Hu in Hno. unfold handle. simpl.
    rewrite (delete_user_first s _ us [] u); [by rewrite app_nil_r| |done].
    by apply no_match_iff.
Qed.

Lemma create_then_delete_restores_witness :
  handle (mkRequest (DeleteUser "3") ∅ ∅) (snd (handle post_maria users))
  = (mkResponse 204 None, users)
  ∧ handle (mkRequest (DeleteUser "3") ∅ ∅) (snd (handle put_liberty users))
    = (mkResponse 204 None, users).
Proof.
  split.
  - apply (proj1 create_then_delete_restores json_headers maria_body users "3");
      reflexivity.
  - apply (proj2 create_then_delete_restores "3" json_headers liberty_body users).
    reflexivity.
Defined.

(** X11. A request about one id does not disturb the others: whatever the
    request, [GET /data/:id] for an id other than the one it addresses is
    answered after it exactly as it was before it. *)
Theorem other_ids_undisturbed :
  ∀ (req : Request) (us : list User) (t : string) (hs : gmap string string) (b : object),
    addressed_id req ≠ VStr t →
    fst (handle (mkRequest (GetDataId t) hs b) (snd (handle req us)))
    = fst (handle (mkRequest (GetDataId t) hs b) us).
Proof.
  intros req us t hs b Ht.
  destruct (handle_cases req us) as [[H _]|[(u & E & Hu & _)|
    [(before & u & after & -> & E & (s & Hu & Hs) & _)|
     (before & old & new & after & -> & E & (s & Ho & Hn & Hs) & _)]]].
  - by rewrite H.
  - rewrite E. unfold handle. simpl. unfold get_data_id.
    rewrite find_app_last; [by destruct (find _ us)|].
    apply strict_eq_string_false. congruence.
  - rewrite E. unfold handle. simpl. unfold get_data_id.
    rewrite (find_skip _ before after u); [by destruct (find _ (before ++ after))|].
    apply strict_eq_string_false. congruence.
  - rewrite E. unfold handle. simpl. unfold get_data_id.
    rewrite (find_skip _ before after old), (find_skip _ before after new);
      [by destruct (find _ (before ++ after))|..];
      apply strict_eq_string_false; congruence.
Qed.

Lemma other_ids_undisturbed_witness :
  fst (handle (mkRequest (GetDataId "2") ∅ ∅) (snd (handle put_louvre users)))
  = fst (handle (mkRequest (GetDataId "2") ∅ ∅) users).
Proof.
  apply (other_ids_undisturbed put_louvre users "2" ∅ ∅). discriminate.
Defined.

(** X12. [PUT /users/:user_id] reads nothing of the body but [Firstname]
    and [Surname]: two bodies that agree on these two keys get the same
    answer and leave the same registry, whatever other keys they hold, an
    [id] included, and however many. *)
Theorem put_reads_only_the_names :
  ∀ (s : string) (hs : gmap string string) (b b' : object) (us : list User),
    b !! "Firstname" = b' !! "Firstname" →
    b !! "Surname" = b' !! "Surname" →
    handle (mkRequest (PutUser s) hs b) us = handle (mkRequest (PutUser s) hs b') us.
Proof.
  intros s hs b b' us HF HS.
  unfold handle, put_user, content_type_not_json, prop. simpl.
  by rewrite HF, HS.
Qed.

Lemma put_reads_only_the_names_witness :
  handle (mkRequest (PutUser "1") json_headers louvre_body) users
  = handle (mkRequest (PutUser "1") json_headers louvre_body_with_extras) users.
Proof.
  apply (put_reads_only_the_names "1" json_headers louvre_body louvre_body_with_extras users);
    reflexivity.
Defined.

Lemma handle_well_formed (req : Request) (us : list User) :
  Forall well_formed us → Forall well_formed (snd (handle req us)).
Proof.
  intros Hus.
  destruct (handle_cases req us) as [[H _]|[(u & E & _ & Hu & _)|
    [(before & u & after & -> & E & _)|
     (before & old & new & after & -> & E & _ & Hn & _)]]].
  - by rewrite H.
  - rewrite E. simpl. apply Forall_app. split; [done|by constructor].
  - rewrite E. simpl. apply Forall_app in Hus as [Hb Ha]. apply Forall_app.
    split; [done|]. by inversion Ha.
  - rewrite E. simpl. apply Forall_app in Hus as [Hb Ha]. apply Forall_app.
    split; [done|]. inversion Ha; subst. by constructor.
Qed.

Lemma run_well_formed (reqs : list Request) (us : list User) :
  Forall well_formed us → Forall well_formed (run reqs us).
Proof.
  revert us. induction reqs as [|req reqs IH]; intros us Hus; [done|].
  simpl. apply IH. by apply handle_well_formed.
Qed.

(** X13. Every record of every registry the server can reach has a
    [Firstname] and a [Surname] that are not empty (truthy) and an id that
    is not [undefined]: no sequence of requests stores a record with a
    missing name. *)
Theorem stored_records_are_well_formed :
  ∀ (us : list User),
    reachable us →
    ∀ u, u ∈ us →
      truthy (Firstname u) = true ∧ truthy (Surname u) = true ∧ id u ≠ undefined.
Proof.
  intros us [reqs ->] u Hu.
  assert (Forall well_formed (run reqs users)) as H.
  { apply run_well_formed. repeat constructor; done. }
  rewrite Forall_forall in H. by apply H.
Qed.

Lemma stored_records_are_well_formed_witness :
  truthy (Firstname louvre) = true ∧ truthy (Surname louvre) = true
  ∧ id louvre ≠ undefined.
Proof.
  apply (stored_records_are_well_formed (run [put_louvre] users)).
  - by exists [put_louvre].
  - left.
Defined.

(** X14. When [POST /data] creates: the answer is 201 exactly when the
    content type is [application/json], the body holds an [id], a
    [Firstname] and a [Surname] that are not empty (truthy), these are its
    only keys, and no stored id is [===] to the id of the body. *)
Theorem post_created_iff :
  ∀ (hs : gmap string string) (b : object) (us : list User),
    status (fst (handle (mkRequest PostData hs b) us)) = 201
    ↔ hs !! "content-type" = Some "application/json"
      ∧ truthy (prop b "id") = true
      ∧ truthy (prop b "Firstname") = true
      ∧ truthy (prop b "Surname") = true
      ∧ dom b = ({["id"; "Firstname"; "Surname"]} : gset string)
      ∧ ∀ u, u ∈ us → strict_eq (id u) (prop b "id") = false.
Proof.
  intros hs b us. unfold handle. simpl. split.
  - intros H. apply post_data_created in H as (Hct & Hi & Hf & Hs & Hlen & Hno & _).
    simpl in *. repeat split; try done.
    + by apply content_type_json_inv in Hct.
    + apply three_keys; [by apply truthy_prop_is_Some..|].
      unfold keys_length in Hlen. lia.
    + apply some_false in Hno. by rewrite Forall_forall in Hno.
  - intros (Hct & Hi & Hf & Hs & Hdom & Hno).
    assert (size b = 3%nat) as Hsize.
    { rewrite <- (size_dom (D := gset string)), Hdom. vm_compute. reflexivity. }
    unfold post_data. simpl.
    rewrite (json_content_type _ _ _ Hct), Hi, Hf, Hs. unfold keys_length.
    rewrite Hsize. simpl.
    assert (some (λ user, strict_eq (id user) (prop b "id")) us = false) as ->; [|done].
    apply some_false. by rewrite Forall_forall.
Qed.

Lemma handle_keeps_non_string_id (req : Request) (us : list User) (u : User) :
  u ∈ us → (∀ s, id u ≠ VStr s) → u ∈ snd (handle req us).
Proof.
  intros Hu Hid.
  destruct (handle_cases req us) as [[H _]|[(n & E & _)|
    [(before & x & after & -> & E & (s & Hx & _) & _)|
     (before & old & new & after & -> & E & (s & Ho & _) & _)]]].
  - by rewrite H.
  - rewrite E. simpl. apply elem_of_app. by left.
  - rewrite E. simpl. apply elem_of_app.
    apply elem_of_app in Hu as [Hu|Hu]; [by left|right].
    apply elem_of_cons in Hu as [->|Hu]; [by destruct (Hid s)|done].
  - rewrite E. simpl. apply elem_of_app.
    apply elem_of_app in Hu as [Hu|Hu]; [by left|right].
    apply elem_of_cons in Hu as [->|Hu]; [by destruct (Hid s)|by right].
Qed.

(** X15. A record whose id is not a string stays for good: [DELETE] and
    [PUT] compare the stored id with the path parameter, which is a string,
    so that no sequence of requests removes or overwrites such a record. *)
Theorem non_string_id_is_permanent :
  ∀ (reqs : list Request) (us : list User) (u : User),
    u ∈ us → (∀ s, id u ≠ VStr s) → u ∈ run reqs us.
Proof.
  induction reqs as [|req reqs IH]; intros us u Hu Hid; [done|].
  simpl. apply IH; [|done]. by apply handle_keeps_non_string_id.
Qed.

Lemma non_string_id_is_permanent_witness :
  object_id_user
  ∈ run [mkRequest (DeleteUser "1") ∅ ∅; put_liberty]
        (snd (handle (mkRequest PostData json_headers object_id_body) users)).
Proof.
  apply non_string_id_is_permanent.
  - right. right. left.
  - discriminate.
Defined.
